(** * ObservableFetchQuery: the subscription lifecycle of the sysmon client

    A shallow embedding of
    [demos/sysmon-client/src/components/ObservableFetchQuery.js]: the React
    class component that opens an observable GraphQL query when it is
    mounted, forwards the notifications of the feed into its [state], and
    unsubscribes when it is unmounted.

    The component is stateful JavaScript.  Its instance ([this]) and the
    outside world (the Subscription Source and the console) are threaded
    explicitly through a small state-and-exception monad; JavaScript values
    are a first-order data type; a [throw] is the [Throw] result. *)

From Stdlib Require Import String Ascii List Arith Bool Lia.
Import ListNotations.
Local Open Scope string_scope.
Set Warnings "-register-all".

(** ** JavaScript values *)

(** The fragment of JavaScript values that flows through the component: what
    a JSON response decodes to, plus [undefined].  A number is a finite
    double, named by the text that Number::toString gives for it ([42],
    [42.5], [1e+21]): that text determines the number, and it is all that
    the component ever does with one.  An object is its list of own
    properties in insertion order, which is also how an [Error] appears (its
    [message] is an own property). *)
Inductive JsVal : Type :=
| JUndefined
| JNull
| JBool (b : bool)
| JNum (text : string)
| JStr (s : string)
| JArr (items : list JsVal)
| JObj (props : list (string * JsVal)).

(** The outcome of evaluating JavaScript code: a value, or a thrown one. *)
Inductive Result (A : Type) : Type :=
| Ok (a : A)
| Throw (e : JsVal).
Arguments Ok {A} a.
Arguments Throw {A} e.

Definition TypeError (message : string) : JsVal :=
  JObj [("name", JStr "TypeError"); ("message", JStr message)].

Fixpoint lookup (k : string) (props : list (string * JsVal)) : option JsVal :=
  match props with
  | [] => None
  | (k', v) :: rest => if String.eqb k k' then Some v else lookup k rest
  end.

(** [v.name], for a [name] that no built-in prototype defines (such as
    [message] on a string, a number or a plain object): reading it from
    [undefined] or [null] throws a TypeError, from an object it gives the own
    property or [undefined], from any other primitive [undefined]. *)
Definition get_prop (v : JsVal) (name : string) : Result JsVal :=
  match v with
  | JUndefined =>
      Throw (TypeError ("Cannot read properties of undefined (reading '" ++ name ++ "')"))
  | JNull =>
      Throw (TypeError ("Cannot read properties of null (reading '" ++ name ++ "')"))
  | JObj props =>
      match lookup name props with
      | Some x => Ok x
      | None => Ok JUndefined
      end
  | _ => Ok JUndefined
  end.

(** *** JSON.stringify *)

Definition hex_digit (n : nat) : ascii :=
  match n with
  | 0 => "0" | 1 => "1" | 2 => "2" | 3 => "3" | 4 => "4" | 5 => "5"
  | 6 => "6" | 7 => "7" | 8 => "8" | 9 => "9" | 10 => "a" | 11 => "b"
  | 12 => "c" | 13 => "d" | 14 => "e" | _ => "f"
  end%char.

Definition dquote : ascii := ascii_of_nat 34.
Definition backslash : ascii := ascii_of_nat 92.

(** QuoteJSONString on one code unit. *)
Definition quote_char (c : ascii) : string :=
  let n := nat_of_ascii c in
  if Nat.eqb n 34 then String backslash (String dquote EmptyString)
  else if Nat.eqb n 92 then String backslash (String backslash EmptyString)
  else if Nat.eqb n 8 then "\b"
  else if Nat.eqb n 9 then "\t"
  else if Nat.eqb n 10 then "\n"
  else if Nat.eqb n 12 then "\f"
  else if Nat.eqb n 13 then "\r"
  else if Nat.ltb n 32 then
    "\u00" ++ String (hex_digit (n / 16)) (String (hex_digit (n mod 16)) EmptyString)
  else String c EmptyString.

Fixpoint quote_body (s : string) : string :=
  match s with
  | EmptyString => EmptyString
  | String c rest => quote_char c ++ quote_body rest
  end.

Definition quote (s : string) : string :=
  String dquote (quote_body s ++ String dquote EmptyString).

Fixpoint join (sep : string) (parts : list string) : string :=
  match parts with
  | [] => EmptyString
  | [p] => p
  | p :: rest => p ++ sep ++ join sep rest
  end.

(** [JSON.stringify(v)] with no replacer and no indent.  [None] is the
    result [undefined]: of [undefined] itself at the top; a property whose
    value is [undefined] is left out, an array item that is [undefined] is
    written [null].  On this (acyclic) fragment it never throws. *)
Fixpoint JSON_stringify (v : JsVal) : option string :=
  match v with
  | JUndefined => None
  | JNull => Some "null"
  | JBool b => Some (if b then "true" else "false")
  | JNum text => Some text
  | JStr s => Some (quote s)
  | JArr items =>
      Some ("[" ++ join ","
                    (map (fun x => match JSON_stringify x with
                                   | Some s => s
                                   | None => "null"
                                   end) items)
                ++ "]")
  | JObj props =>
      Some ("{" ++ join ","
                    (flat_map (fun kv => match JSON_stringify (snd kv) with
                                         | Some s => [quote (fst kv) ++ ":" ++ s]
                                         | None => []
                                         end) props)
                ++ "}")
  end.


(** ** The component instance and the world around it *)

(** [this.state]: the View State.  [response] and [error] hold whatever
    value a callback was given; [complete] is only ever assigned the
    literals [false] and [true]. *)
Record State : Type := mkState {
  response : JsVal;
  complete : bool;
  error : JsVal
}.

(** The argument of [setState]: an object with some of the state's keys. *)
Record Partial : Type := mkPartial {
  p_response : option JsVal;
  p_complete : option bool;
  p_error : option JsVal
}.

Definition only_response (r : JsVal) : Partial := mkPartial (Some r) None None.
Definition only_complete (b : bool) : Partial := mkPartial None (Some b) None.
Definition only_error (e : JsVal) : Partial := mkPartial None None (Some e).

(** React's effect of [setState(partial)] on [this.state]: the keys of
    [partial] are copied over those of the state, the others are kept. *)
Definition merge (st : State) (p : Partial) : State :=
  mkState
    (match p_response p with Some r => r | None => response st end)
    (match p_complete p with Some b => b | None => complete st end)
    (match p_error p with Some e => e | None => error st end).

(** A Subscription Handle, named by a number; [null] is [None]. *)
Definition Handle : Type := nat.

(** The instance: [this.subscription] and [this.state]. *)
Record Component : Type := mkComponent {
  subscription : option Handle;
  state : State
}.

(** What the component does to the outside, in order. *)
Inductive Effect : Type :=
| ConsoleLog (v : JsVal)
| ConsoleError (v : JsVal)
| Observe (url : JsVal) (init : JsVal) (query : string)
          (variables : JsVal) (operation : JsVal)
| Subscribed (h : Handle)
| Unsubscribe (h : Handle).

(** A notification of the feed. *)
Inductive Notification : Type :=
| Next (payload : JsVal)
| Complete
| Error (err : JsVal).

(** The lifecycle methods React calls, and the callbacks the source calls. *)
Inductive Op : Type :=
| Mount
| Unmount
| Deliver (n : Notification).

(** The render output: the text and the [{...}] children of the [div]s. *)
Inductive Node : Type :=
| Text (s : string)
| Child (v : JsVal)
| Div (children : list Node).

(** *** The monad of a method body *)

Section Monad.

(** [S] is the state of the Subscription Source. *)
Context {S : Type}.

(** The world outside the instance: the source and the trace of effects. *)
Record World : Type := mkWorld {
  source : S;
  trace : list Effect
}.

(** A method body reads and writes [this] and the world, and returns or
    throws. *)
Definition M (A : Type) : Type :=
  Component * World -> Result A * (Component * World).

Definition ret {A : Type} (a : A) : M A := fun s => (Ok a, s).

Definition throw {A : Type} (e : JsVal) : M A := fun s => (Throw e, s).

Definition bind {A B : Type} (m : M A) (k : A -> M B) : M B :=
  fun s =>
    match m s with
    | (Ok a, s') => k a s'
    | (Throw e, s') => (Throw e, s')
    end.

Definition get_subscription : M (option Handle) :=
  fun s => (Ok (subscription (fst s)), s).

Definition set_subscription (h : option Handle) : M unit :=
  fun s => (Ok tt, (mkComponent h (state (fst s)), snd s)).

(** The update of [this.setState(p)], as React applies it to a mounted
    instance: at once here; React may apply it later, but it applies the
    updates of an instance in the order of the calls, so the state they leave
    is the same.  The call itself, which drops the update when the instance
    is not mounted, is [React.enqueueSetState]. *)
Definition setState (p : Partial) : M unit :=
  fun s =>
    (Ok tt, (mkComponent (subscription (fst s)) (merge (state (fst s)) p), snd s)).

Definition emit (e : Effect) : M unit :=
  fun s => (Ok tt, (fst s, mkWorld (source (snd s)) (trace (snd s) ++ [e]))).

(** A call into the source: it sees and changes only its own state. *)
Definition call_source {A : Type} (f : S -> Result A * S) : M A :=
  fun s =>
    let (r, src') := f (source (snd s)) in
    (r, (fst s, mkWorld src' (trace (snd s)))).

Definition console_log (v : JsVal) : M unit := emit (ConsoleLog v).
Definition console_error (v : JsVal) : M unit := emit (ConsoleError v).

(** The instance and the world after a call, whether it returned or threw,
    and what the call gave. *)
Definition after {A : Type} (m : M A) (s : Component * World) : Component * World :=
  snd (m s).

Definition outcome {A : Type} (m : M A) (s : Component * World) : Result A :=
  fst (m s).

(** The observer object handed to [subscribe]: its [next], [complete] and
    [error] members. *)
Record Observer : Type := mkObserver {
  next : JsVal -> M unit;
  complete_cb : M unit;
  error_cb : JsVal -> M unit
}.

End Monad.

Arguments World S : clear implicits.
Arguments M S A : clear implicits.
Arguments Observer S : clear implicits.

Notation "x <- m ;; k" := (bind m (fun x => k))
  (at level 61, m at next level, right associativity).
Notation "m ;; k" := (bind m (fun _ => k))
  (at level 61, right associativity).

(** ** The collaborators *)

(** The Subscription Source ([../graphql-observable]) and the configuration
    ([../config]) are imported by the component; they are taken as
    parameters.  The source has a state of its own, may throw from
    [graphqlObserve] and from [subscribe], and chooses the handle that
    [subscribe] returns.  The release operation of a handle is taken to
    return normally, as the data model of the specification assumes of
    handles. *)
Record Collaborators : Type := mkCollaborators {
  SrcState : Type;
  Observable : Type;
  CONFIG_graphqlQueryPath : JsVal;
  graphqlObserve :
    JsVal -> JsVal -> string -> JsVal -> JsVal ->
    SrcState -> Result Observable * SrcState;
  subscribe :
    Observable -> Observer SrcState -> SrcState -> Result Handle * SrcState;
  unsubscribe : Handle -> SrcState -> SrcState
}.

(** ** The component *)

Section Controller.

Variable env : Collaborators.

(** *** constructor *)

Definition constructor (props : JsVal) : Component :=
  mkComponent None (mkState (JStr EmptyString) false (JStr EmptyString)).

(** *** invokeQuery *)

Definition query : string := "
query {
  latest {
    timestamp
    cpu {
      percent
    }
  }
}".

Definition request_init : JsVal :=
  JObj [("method", JStr "post");
        ("mode", JStr "cors");
        ("headers", JObj [("allow", JStr "post")])].

Definition observer : Observer (SrcState env) :=
  {| next := fun response =>
       console_log response ;;
       setState (only_response response);
     complete_cb :=
       console_log (JStr "complete") ;;
       setState (only_complete true);
     error_cb := fun error =>
       console_error error ;;
       setState (only_error error) |}.

Definition invokeQuery : M (SrcState env) Handle :=
  let url := CONFIG_graphqlQueryPath env in
  let variables := JObj [] in
  let operation := JNull in
  emit (Observe url request_init query variables operation) ;;
  observable <- call_source
                  (graphqlObserve env url request_init query variables operation) ;;
  h <- call_source (subscribe env observable observer) ;;
  emit (Subscribed h) ;;
  ret h.

(** *** componentDidMount *)

Definition componentDidMount : M (SrcState env) unit :=
  console_log (JStr "componentDidMount") ;;
  h <- invokeQuery ;;
  set_subscription (Some h).

(** *** componentWillUnmount *)

(** [if (x)] on the subscription field: [null] is falsy, a handle (an
    object) is truthy. *)
Definition truthy (x : option Handle) : bool :=
  match x with
  | Some _ => true
  | None => false
  end.

(** [x.unsubscribe()]: on [null] the property read throws. *)
Definition call_unsubscribe (x : option Handle) : M (SrcState env) unit :=
  match x with
  | None =>
      throw (TypeError "Cannot read properties of null (reading 'unsubscribe')")
  | Some h =>
      emit (Unsubscribe h) ;;
      call_source (fun src => (Ok tt, unsubscribe env h src))
  end.

Definition componentWillUnmount : M (SrcState env) unit :=
  console_log (JStr "componentWillUnmount") ;;
  sub <- get_subscription ;;
  if truthy sub then
    call_unsubscribe sub ;;
    set_subscription None
  else
    ret tt.

(** *** render *)

Definition render (this : Component) : Result Node :=
  let response := response (state this) in
  let complete := complete (state this) in
  let error := error (state this) in
  let shown := match JSON_stringify response with
               | Some s => JStr s
               | None => JUndefined
               end in
  match get_prop error "message" with
  | Throw e => Throw e
  | Ok message =>
      Ok (Div [Div [Text "Response: "; Child shown];
               Div [Text "Complete: ";
                    Child (JStr (if complete then "true" else "false"))];
               Div [Text "Error: "; Child message]])
  end.

(** *** Running the component *)

(** The source delivers a notification by calling the observer. *)
Definition deliver (n : Notification) : M (SrcState env) unit :=
  match n with
  | Next payload => next observer payload
  | Complete => complete_cb observer
  | Error err => error_cb observer err
  end.

Definition run_op (op : Op) : M (SrcState env) unit :=
  match op with
  | Mount => componentDidMount
  | Unmount => componentWillUnmount
  | Deliver n => deliver n
  end.

(** A run: each call is made on what the previous one left, whether it
    returned or threw. *)
Definition exec (ops : list Op) (s : Component * World (SrcState env))
  : Component * World (SrcState env) :=
  fold_left (fun s op => after (run_op op) s) ops s.

(** The freshly constructed instance, in a world where nothing happened. *)
Definition start (props : JsVal) (src : SrcState env)
  : Component * World (SrcState env) :=
  (constructor props, mkWorld src []).

End Controller.

(** ** The runtime around the component *)

(** The component extends React's [Component]: React calls its lifecycle
    methods, [this.setState] is React's, and React renders again after an
    update.  What matters of that here:
    - an instance is constructed, then mounted (once), then unmounted;
    - [this.setState(p)] hands [p] to the updater, which applies it only to
      a mounted instance: on one that is not mounted yet, or not any more,
      the update is dropped and the call returns;
    - after an update React calls [render]; if [render] throws (there is no
      error boundary in the application) the update is not committed, the
      tree is torn down, which calls [componentWillUnmount], and the
      instance is unmounted;
    - a throw out of [componentDidMount] tears the tree down likewise. *)
Module React.

Inductive Phase : Type :=
| Constructed
| Mounted
| Unmounted.

Definition is_mounted (ph : Phase) : bool :=
  match ph with
  | Mounted => true
  | _ => false
  end.

(** An instance in the runtime: its phase, and the instance and the world. *)
Record Fiber (S : Type) : Type := mkFiber {
  phase : Phase;
  sys : Component * World S
}.
Arguments mkFiber {S} phase sys.
Arguments phase {S} f.
Arguments sys {S} f.

Section Runtime.

Variable env : Collaborators.

(** [this.updater.enqueueSetState(this, p)]: what [this.setState(p)] does
    on an instance in the given phase. *)
Definition enqueueSetState (ph : Phase) (p : Partial) : M (SrcState env) unit :=
  if is_mounted ph then setState p else ret tt.

(** The observer of [invokeQuery], with [this.setState] as given. *)
Definition observer_of (set : Partial -> M (SrcState env) unit)
  : Observer (SrcState env) :=
  {| next := fun response =>
       console_log response ;;
       set (only_response response);
     complete_cb :=
       console_log (JStr "complete") ;;
       set (only_complete true);
     error_cb := fun error =>
       console_error error ;;
       set (only_error error) |}.

(** The source delivers a notification to an instance in the given phase. *)
Definition notify (ph : Phase) (n : Notification) : M (SrcState env) unit :=
  match n with
  | Next payload => next (observer_of (enqueueSetState ph)) payload
  | Complete => complete_cb (observer_of (enqueueSetState ph))
  | Error err => error_cb (observer_of (enqueueSetState ph)) err
  end.

(** Tearing the tree down: [componentWillUnmount] is called and the
    instance is unmounted. *)
Definition teardown (s : Component * World (SrcState env)) : Fiber (SrcState env) :=
  mkFiber Unmounted (after (componentWillUnmount env) s).

(** One event in the life of an instance.  React mounts a constructed
    instance and unmounts a mounted one, and does neither otherwise; a
    notification can arrive in any phase. *)
Definition step (op : Op) (f : Fiber (SrcState env)) : Fiber (SrcState env) :=
  match op, phase f with
  | Mount, Constructed =>
      match outcome (componentDidMount env) (sys f) with
      | Ok _ => mkFiber Mounted (after (componentDidMount env) (sys f))
      | Throw _ => teardown (after (componentDidMount env) (sys f))
      end
  | Unmount, Mounted => teardown (sys f)
  | Deliver n, Mounted =>
      let s' := after (notify Mounted n) (sys f) in
      match render (fst s') with
      | Ok _ => mkFiber Mounted s'
      | Throw _ =>
          teardown (mkComponent (subscription (fst s')) (state (fst (sys f))),
                    snd s')
      end
  | Deliver n, ph => mkFiber ph (after (notify ph n) (sys f))
  | _, _ => f
  end.

Definition run (ops : list Op) (f : Fiber (SrcState env)) : Fiber (SrcState env) :=
  fold_left (fun f op => step op f) ops f.

(** The constructed instance, before React has mounted it. *)
Definition create (props : JsVal) (src : SrcState env) : Fiber (SrcState env) :=
  mkFiber Constructed (start env props src).

End Runtime.

End React.

(** ** Two concrete sources *)

(** A source that works: its state counts the handles it has given out, and
    each [subscribe] returns the next number. *)
Definition counting_source : Collaborators :=
  {| SrcState := nat;
     Observable := unit;
     CONFIG_graphqlQueryPath := JStr "/sysmon/graphql";
     graphqlObserve := fun _ _ _ _ _ n => (Ok tt, n);
     subscribe := fun _ _ n => (Ok (S n), S n);
     unsubscribe := fun _ n => n |}.

(** A source whose [graphqlObserve] throws on the request. *)
Definition malformed : JsVal := TypeError "Failed to parse URL".

Definition throwing_source : Collaborators :=
  {| SrcState := nat;
     Observable := unit;
     CONFIG_graphqlQueryPath := JUndefined;
     graphqlObserve := fun _ _ _ _ _ n => (Throw malformed, n);
     subscribe := fun _ _ n => (Ok (S n), S n);
     unsubscribe := fun _ n => n |}.

Definition cpu42 : JsVal := JObj [("cpu", JNum "42")].

(** A feed that has both failed and completed, and three more
    notifications. *)
Definition terminal_run : Component * World (SrcState counting_source) :=
  exec counting_source [Mount; Deliver (Error malformed); Deliver Complete]
    (start counting_source JNull 0).

Definition late_notifications : list Notification :=
  [Next cpu42; Error (JStr "late"); Complete].

(** ** The application: navigation and routes *)

(** [App.js]: a navigation list of four links and a [Switch] over five
    routes.  What a route's path matches is React Router's business; it is
    the parameter [matches path location].  A [Switch] renders the first of
    its routes whose path matches the location, and nothing if none does. *)
Module App.

(** The components the routes render. *)
Inductive Page : Type :=
| Home
| ObservableFetchQuery
| ObservableStreamQuery
| ObservableStreamSubscription
| ObservableWsSubscription.

(** The name a component is imported under. *)
Definition name_of (p : Page) : string :=
  match p with
  | Home => "Home"
  | ObservableFetchQuery => "ObservableFetchQuery"
  | ObservableStreamQuery => "ObservableStreamQuery"
  | ObservableStreamSubscription => "ObservableStreamSubscription"
  | ObservableWsSubscription => "ObservableWsSubscription"
  end.

(** The [Link]s of the [nav], in order: the target and the text. *)
Definition links : list (string * string) :=
  [("/observable-stream-subscription", "ObservableStreamSubscription");
   ("/observable-stream-query", "ObservableStreamQuery");
   ("/observable-fetch-query", "ObservableFetchQuery");
   ("/observable-ws-subscription", "ObservableWsSubscription")].

(** The [Route]s of the [Switch], in order: the path and the component. *)
Definition routes : list (string * Page) :=
  [("/observable-stream-query", ObservableStreamQuery);
   ("/observable-fetch-query", ObservableFetchQuery);
   ("/observable-stream-subscription", ObservableStreamSubscription);
   ("/observable-ws-subscription", ObservableWsSubscription);
   ("/", Home)].

Fixpoint Switch (matches : string -> string -> bool)
         (children : list (string * Page)) (location : string) : option Page :=
  match children with
  | [] => None
  | (path, page) :: rest =>
      if matches path location then Some page else Switch matches rest location
  end.

(** What [render] gives at a location: the links and the page shown. *)
Definition render (matches : string -> string -> bool) (location : string)
  : list (string * string) * option Page :=
  (links, Switch matches routes location).

(** The paths of the routes other than the last, catch-all one. *)
Definition page_paths : list string :=
  ["/observable-stream-query"; "/observable-fetch-query";
   "/observable-stream-subscription"; "/observable-ws-subscription"].

(** A matcher to try the routes with: the path is a prefix of the
    location. *)
Definition prefix_matcher (path location : string) : bool :=
  prefix path location.

End App.

(** ** Observations on a run *)

(** What the callback for a notification passes to [setState], and what it
    writes to the console first. *)
Definition patch_of (n : Notification) : Partial :=
  match n with
  | Next payload => only_response payload
  | Complete => only_complete true
  | Error err => only_error err
  end.

Definition logged (n : Notification) : Effect :=
  match n with
  | Next payload => ConsoleLog payload
  | Complete => ConsoleLog (JStr "complete")
  | Error err => ConsoleError err
  end.

(** The number of [unsubscribe()] calls in a trace. *)
Fixpoint releases (t : list Effect) : nat :=
  match t with
  | [] => 0
  | Unsubscribe _ :: t' => S (releases t')
  | _ :: t' => releases t'
  end.

(** The handle a trace leaves open for the field: the last one [subscribe]
    returned, unless an [unsubscribe()] came after it. *)
Definition held_step (cur : option Handle) (e : Effect) : option Handle :=
  match e with
  | Subscribed h => Some h
  | Unsubscribe _ => None
  | _ => cur
  end.

Definition held (t : list Effect) : option Handle :=
  fold_left held_step t None.

Definition is_mount (op : Op) : bool :=
  match op with
  | Mount => true
  | _ => false
  end.

(** The runs in which [componentDidMount] is never called. *)
Definition never_mounted (ops : list Op) : list Op :=
  filter (fun op => negb (is_mount op)) ops.

(** The value the constructor gives [error]: no error has been stored. *)
Definition unset (v : JsVal) : bool :=
  match v with
  | JStr EmptyString => true
  | _ => false
  end.

(** An error notification that carries that same empty string. *)
Definition carries_unset (n : Notification) : bool :=
  match n with
  | Error err => unset err
  | _ => false
  end.

(** [undefined] and [null]: the values no property can be read from. *)
Definition nullish (v : JsVal) : bool :=
  match v with
  | JUndefined | JNull => true
  | _ => false
  end.

(** What [render] shows for an error value that a property can be read
    from: its own [message], or [undefined] when it has none. *)
Definition message_of (v : JsVal) : JsVal :=
  match v with
  | JObj props =>
      match lookup "message" props with
      | Some x => x
      | None => JUndefined
      end
  | _ => JUndefined
  end.

Definition deliveries (ns : list Notification) : list Op := map Deliver ns.

(** *** Summaries of a run *)

(** The number of handles that [subscribe] returned in a trace. *)
Fixpoint acquisitions (t : list Effect) : nat :=
  match t with
  | [] => 0
  | Subscribed _ :: t' => S (acquisitions t')
  | _ :: t' => acquisitions t'
  end.

(** A trace that releases only what is held: every [unsubscribe()] is made
    on the handle that the last [subscribe] returned, and not a second time.
    [cur] is the handle held when the trace begins. *)
Fixpoint disciplined (cur : option Handle) (t : list Effect) : bool :=
  match t with
  | [] => true
  | Subscribed h :: t' => disciplined (Some h) t'
  | Unsubscribe h :: t' =>
      match cur with
      | Some h' => Nat.eqb h h' && disciplined None t'
      | None => false
      end
  | _ :: t' => disciplined cur t'
  end.

(** The notifications of a run, and the run without them. *)
Definition notifications_of (ops : list Op) : list Notification :=
  flat_map (fun op => match op with Deliver n => [n] | _ => [] end) ops.

Definition is_delivery (op : Op) : bool :=
  match op with
  | Deliver _ => true
  | _ => false
  end.

Definition lifecycle_of (ops : list Op) : list Op :=
  filter (fun op => negb (is_delivery op)) ops.

(** The payload of the last next-notification, the value of the last error
    notification (the given value when there is none), and whether there is
    a complete notification. *)
Definition last_next (ns : list Notification) (r0 : JsVal) : JsVal :=
  fold_left (fun r n => match n with Next payload => payload | _ => r end) ns r0.

Definition last_error (ns : list Notification) (e0 : JsVal) : JsVal :=
  fold_left (fun e n => match n with Error err => err | _ => e end) ns e0.

Definition is_complete (n : Notification) : bool :=
  match n with
  | Complete => true
  | _ => false
  end.

Definition any_complete (ns : list Notification) : bool := existsb is_complete ns.

(** An operation that can store [undefined] or [null] as the error. *)
Definition stores_nullish (op : Op) : bool :=
  match op with
  | Deliver (Error err) => nullish err
  | _ => false
  end.

(** The TypeError of reading [message] from [undefined] or [null]. *)
Definition message_TypeError (v : JsVal) : JsVal :=
  TypeError ("Cannot read properties of "
               ++ (match v with JNull => "null" | _ => "undefined" end)
               ++ " (reading 'message')").

(** What [render] puts after [Response: ]. *)
Definition shown_response (v : JsVal) : JsVal :=
  match JSON_stringify v with
  | Some s => JStr s
  | None => JUndefined
  end.

(** The number of requests made to the source in a trace. *)
Fixpoint requests (t : list Effect) : nat :=
  match t with
  | [] => 0
  | Observe _ _ _ _ _ :: t' => S (requests t')
  | _ :: t' => requests t'
  end.

Definition is_unmount (op : Op) : bool :=
  match op with
  | Unmount => true
  | _ => false
  end.

(** How often a run calls [componentDidMount] and [componentWillUnmount]. *)
Definition mounts (ops : list Op) : nat := length (filter is_mount ops).
Definition unmounts (ops : list Op) : nat := length (filter is_unmount ops).

(** An error is stored: the field holds neither the constructor's empty
    string nor [undefined] or [null]. *)
Definition error_set (v : JsVal) : bool := negb (unset v) && negb (nullish v).

(** An error notification whose value is not an error to store. *)
Definition carries_no_error (n : Notification) : bool :=
  match n with
  | Error err => negb (error_set err)
  | _ => false
  end.

(** A run in which [componentDidMount] is called only while the field is
    [null], as React does, which mounts an instance once. *)
Fixpoint mounts_when_idle (env : Collaborators) (ops : list Op)
         (s : Component * World (SrcState env)) : bool :=
  match ops with
  | [] => true
  | op :: rest =>
      (if is_mount op then negb (truthy (subscription (fst s))) else true)
      && mounts_when_idle env rest (after (run_op env op) s)
  end.

(** As many handles are open as the field holds: every handle acquired
    was released, but for the one held. *)
Definition settled (field : option Handle) (t : list Effect) : Prop :=
  acquisitions t = releases t + (if truthy field then 1 else 0).

(** The three facts about the field and the trace that every call keeps. *)
Definition balanced (field : option Handle) (t : list Effect) : Prop :=
  field = held t
  /\ disciplined None t = true
  /\ releases t + (if truthy field then 1 else 0) <= acquisitions t.

(** Unfolding a method body down to the state it returns. *)
Ltac unfold_methods :=
  unfold componentDidMount, invokeQuery, componentWillUnmount, call_unsubscribe,
    deliver, observer, console_log, console_error, emit, setState,
    set_subscription, get_subscription, call_source, bind, ret, throw, truthy;
  cbn [next complete_cb error_cb fst snd source trace subscription state].

(** * Properties *)

Example stringify_cpu :
  JSON_stringify cpu42 = Some ("{" ++ quote "cpu" ++ ":42}").
Proof. reflexivity. Qed.

(** ** Equations of the methods *)

Section Equations.

Variable env : Collaborators.

Lemma deliver_eq (n : Notification) (c : Component) (w : World (SrcState env)) :
  deliver env n (c, w) =
  (Ok tt, (mkComponent (subscription c) (merge (state c) (patch_of n)),
           mkWorld (source w) (trace w ++ [logged n]))).
Proof. destruct n; unfold_methods; reflexivity. Qed.

Lemma unmount_null (c : Component) (w : World (SrcState env)) :
  subscription c = None ->
  componentWillUnmount env (c, w) =
  (Ok tt, (c, mkWorld (source w)
                (trace w ++ [ConsoleLog (JStr "componentWillUnmount")]))).
Proof. intros H; unfold_methods; rewrite H; reflexivity. Qed.

Lemma unmount_held (c : Component) (w : World (SrcState env)) (h : Handle) :
  subscription c = Some h ->
  componentWillUnmount env (c, w) =
  (Ok tt, (mkComponent None (state c),
           mkWorld (unsubscribe env h (source w))
             (trace w ++ [ConsoleLog (JStr "componentWillUnmount"); Unsubscribe h]))).
Proof.
  intros H; unfold_methods; rewrite H.
  cbn [fst snd source trace]. rewrite <- app_assoc. reflexivity.
Qed.

(** [componentDidMount] either stores the handle that [subscribe] returned,
    or throws what the source threw and leaves the instance as it was. *)
Lemma mount_cases (c : Component) (w : World (SrcState env)) :
  (exists h src',
      componentDidMount env (c, w) =
      (Ok tt, (mkComponent (Some h) (state c),
               mkWorld src'
                 (trace w ++ [ConsoleLog (JStr "componentDidMount");
                              Observe (CONFIG_graphqlQueryPath env) request_init
                                query (JObj []) JNull;
                              Subscribed h]))))
  \/ (exists e src',
      componentDidMount env (c, w) =
      (Throw e, (c, mkWorld src'
                      (trace w ++ [ConsoleLog (JStr "componentDidMount");
                                   Observe (CONFIG_graphqlQueryPath env)
                                     request_init query (JObj []) JNull])))).
Proof.
  unfold_methods.
  destruct (graphqlObserve env (CONFIG_graphqlQueryPath env) request_init query
              (JObj []) JNull (source w)) as [[o | e] s1];
    cbn [fst snd source trace].
  - destruct (subscribe env o _ s1) as [[h | e] s2]; cbn [fst snd source trace].
    + left. exists h, s2. repeat rewrite <- app_assoc. reflexivity.
    + right. exists e, s2. repeat rewrite <- app_assoc. reflexivity.
  - right. exists e, s1. repeat rewrite <- app_assoc. reflexivity.
Qed.

End Equations.

(** ** Runs *)

Section Runs.

Variable env : Collaborators.

Lemma exec_app (ops1 ops2 : list Op) (s : Component * World (SrcState env)) :
  exec env (ops1 ++ ops2) s = exec env ops2 (exec env ops1 s).
Proof. unfold exec. apply fold_left_app. Qed.

Lemma after_deliver (n : Notification) (s : Component * World (SrcState env)) :
  after (deliver env n) s =
  (mkComponent (subscription (fst s)) (merge (state (fst s)) (patch_of n)),
   mkWorld (source (snd s)) (trace (snd s) ++ [logged n])).
Proof. destruct s as [c w]. unfold after. rewrite deliver_eq. reflexivity. Qed.

Lemma outcome_deliver (n : Notification) (s : Component * World (SrcState env)) :
  outcome (deliver env n) s = Ok tt.
Proof. destruct s as [c w]. unfold outcome. rewrite deliver_eq. reflexivity. Qed.

(** Deliveries never touch the subscription field. *)
Lemma deliveries_keep_subscription (ns : list Notification)
      (s : Component * World (SrcState env)) :
  subscription (fst (exec env (deliveries ns) s)) = subscription (fst s).
Proof.
  revert s. induction ns as [| n ns IH]; intros s; [reflexivity |].
  change (exec env (deliveries (n :: ns)) s)
    with (exec env (deliveries ns) (after (deliver env n) s)).
  rewrite IH, after_deliver. reflexivity.
Qed.

(** [componentDidMount] leaves the View State as it was, whatever the source
    does. *)
Lemma mount_keeps_state (s : Component * World (SrcState env)) :
  state (fst (after (componentDidMount env) s)) = state (fst s).
Proof.
  destruct s as [c w]. unfold after.
  destruct (mount_cases env c w) as [(h & s' & E) | (e & s' & E)];
    rewrite E; reflexivity.
Qed.

Lemma unmount_keeps_state (s : Component * World (SrcState env)) :
  state (fst (after (componentWillUnmount env) s)) = state (fst s).
Proof.
  destruct s as [c w]. unfold after.
  destruct (subscription c) as [h |] eqn:E.
  - rewrite (unmount_held env c w h E). reflexivity.
  - rewrite (unmount_null env c w E). reflexivity.
Qed.

Lemma unmount_clears (s : Component * World (SrcState env)) :
  subscription (fst (after (componentWillUnmount env) s)) = None.
Proof.
  destruct s as [c w]. unfold after.
  destruct (subscription c) as [h |] eqn:E.
  - rewrite (unmount_held env c w h E). reflexivity.
  - rewrite (unmount_null env c w E). exact E.
Qed.

Lemma unmount_returns (s : Component * World (SrcState env)) :
  outcome (componentWillUnmount env) s = Ok tt.
Proof.
  destruct s as [c w]. unfold outcome.
  destruct (subscription c) as [h |] eqn:E.
  - rewrite (unmount_held env c w h E). reflexivity.
  - rewrite (unmount_null env c w E). reflexivity.
Qed.

Lemma snoc_three {A : Type} (t : list A) (a b c : A) :
  (t ++ [a; b; c] = (t ++ [a; b]) ++ [c])%list.
Proof. rewrite <- app_assoc. reflexivity. Qed.

Lemma releases_app (t1 t2 : list Effect) :
  releases (t1 ++ t2) = releases t1 + releases t2.
Proof.
  induction t1 as [| e t1 IH]; [reflexivity |].
  destruct e; cbn [app releases]; rewrite IH; reflexivity.
Qed.

Lemma held_snoc (t : list Effect) (e : Effect) :
  held (t ++ [e]) = held_step (held t) e.
Proof. unfold held. rewrite fold_left_app. reflexivity. Qed.

End Runs.

(** ** What a sequence of notifications leaves behind *)

Section Notifications.

Variable env : Collaborators.

Lemma exec_cons (op : Op) (ops : list Op) (s : Component * World (SrcState env)) :
  exec env (op :: ops) s = exec env ops (after (run_op env op) s).
Proof. reflexivity. Qed.

(** The instance and the world after a sequence of notifications. *)
Lemma exec_deliveries
      (ns : list Notification) (s : Component * World (SrcState env)) :
  exec env (deliveries ns) s
  = (mkComponent (subscription (fst s))
       (mkState (last_next ns (response (state (fst s))))
                (complete (state (fst s)) || any_complete ns)
                (last_error ns (error (state (fst s))))),
     mkWorld (source (snd s)) (trace (snd s) ++ map logged ns)%list).
Proof.
  revert s. induction ns as [| n ns IH]; intros [[sub [r c e]] [src t]].
  - cbn. rewrite orb_false_r, app_nil_r. reflexivity.
  - unfold deliveries. cbn [map]. rewrite exec_cons. cbn [run_op].
    fold (deliveries ns). rewrite IH, after_deliver.
    cbn [fst snd subscription state source trace response complete error].
    rewrite <- app_assoc. cbn [app].
    destruct n as [p | | err];
      cbn [patch_of merge only_response only_complete only_error p_response
             p_complete p_error response complete error last_next last_error
             fold_left any_complete existsb is_complete orb];
      try reflexivity.
    rewrite orb_true_r. reflexivity.
Qed.

(** The View State after some deliveries depends only on the View State
    before them. *)
Lemma deliveries_state_only (ns : list Notification)
      (s1 s2 : Component * World (SrcState env)) :
  state (fst s1) = state (fst s2) ->
  state (fst (exec env (deliveries ns) s1))
  = state (fst (exec env (deliveries ns) s2)).
Proof.
  intros H. rewrite !exec_deliveries. cbn [fst state]. rewrite H. reflexivity.
Qed.

(** [componentDidMount] and [componentWillUnmount] are invisible in the
    View State of a run. *)
Lemma state_of_run (ops : list Op) (s : Component * World (SrcState env)) :
  state (fst (exec env ops s))
  = state (fst (exec env (deliveries (notifications_of ops)) s)).
Proof.
  revert s. induction ops as [| op ops IH]; intros s; [reflexivity |].
  rewrite exec_cons, IH.
  destruct op as [| | n]; cbn [run_op notifications_of flat_map app].
  - apply deliveries_state_only, mount_keeps_state.
  - apply deliveries_state_only, unmount_keeps_state.
  - reflexivity.
Qed.

(** [componentDidMount] decides the field and the source from the field and
    the source alone. *)
Lemma mount_lifecycle_only (s1 s2 : Component * World (SrcState env)) :
  subscription (fst s1) = subscription (fst s2) ->
  source (snd s1) = source (snd s2) ->
  subscription (fst (after (componentDidMount env) s1))
  = subscription (fst (after (componentDidMount env) s2))
  /\ source (snd (after (componentDidMount env) s1))
     = source (snd (after (componentDidMount env) s2)).
Proof.
  destruct s1 as [c1 w1], s2 as [c2 w2]. cbn [fst snd]. intros Hsub Hsrc.
  unfold after. unfold_methods. rewrite Hsrc.
  destruct (graphqlObserve env (CONFIG_graphqlQueryPath env) request_init query
              (JObj []) JNull (source w2)) as [[o | e] src1];
    cbn [fst snd source trace subscription]; [| split; [exact Hsub | reflexivity]].
  match goal with
  | |- context [subscribe env o ?obs src1] =>
      destruct (subscribe env o obs src1) as [[h | e] src2]
  end; cbn [fst snd source trace subscription];
    split; try reflexivity; exact Hsub.
Qed.

Lemma unmount_lifecycle_only (s1 s2 : Component * World (SrcState env)) :
  subscription (fst s1) = subscription (fst s2) ->
  source (snd s1) = source (snd s2) ->
  subscription (fst (after (componentWillUnmount env) s1))
  = subscription (fst (after (componentWillUnmount env) s2))
  /\ source (snd (after (componentWillUnmount env) s1))
     = source (snd (after (componentWillUnmount env) s2)).
Proof.
  destruct s1 as [c1 w1], s2 as [c2 w2]. cbn [fst snd]. intros Hsub Hsrc.
  split; [rewrite !unmount_clears; reflexivity |].
  unfold after. destruct (subscription c2) as [h |] eqn:E.
  - rewrite (unmount_held env c1 w1 h Hsub), (unmount_held env c2 w2 h E).
    cbn [snd source]. rewrite Hsrc. reflexivity.
  - rewrite (unmount_null env c1 w1 Hsub), (unmount_null env c2 w2 E).
    exact Hsrc.
Qed.

(** The notifications are invisible in the field and in the source. *)
Lemma lifecycle_of_run (ops : list Op) (s1 s2 : Component * World (SrcState env)) :
  subscription (fst s1) = subscription (fst s2) ->
  source (snd s1) = source (snd s2) ->
  subscription (fst (exec env ops s1))
  = subscription (fst (exec env (lifecycle_of ops) s2))
  /\ source (snd (exec env ops s1))
     = source (snd (exec env (lifecycle_of ops) s2)).
Proof.
  revert s1 s2. induction ops as [| op ops IH]; intros s1 s2 Hsub Hsrc;
    [split; assumption |].
  rewrite exec_cons.
  destruct op as [| | n]; cbn [lifecycle_of filter is_delivery negb run_op].
  - rewrite exec_cons. cbn [run_op].
    destruct (mount_lifecycle_only s1 s2 Hsub Hsrc) as [H1 H2].
    apply IH; assumption.
  - rewrite exec_cons. cbn [run_op].
    destruct (unmount_lifecycle_only s1 s2 Hsub Hsrc) as [H1 H2].
    apply IH; assumption.
  - apply IH; rewrite after_deliver; assumption.
Qed.

End Notifications.

(** ** The latest payload *)

(** C3. After any finite sequence of next-notifications has been delivered
    (to an instance in any state, so in particular to an active one before
    [componentWillUnmount]), the [response] field of the View State is the
    payload of the notification delivered last; the stored handle is
    untouched. *)
Theorem C3_response_is_latest_payload
        (env : Collaborators) (s : Component * World (SrcState env))
        (earlier : list JsVal) (latest : JsVal) :
  let s' := exec env (deliveries (map Next (earlier ++ [latest]))) s in
  response (state (fst s')) = latest
  /\ subscription (fst s') = subscription (fst s).
Proof.
  cbv zeta. split; [| apply deliveries_keep_subscription].
  unfold deliveries. rewrite !map_app, exec_app.
  cbn [map exec fold_left run_op]. rewrite after_deliver. reflexivity.
Qed.

(** ** Frames of the terminal callbacks *)

(** C8. In the scenario mount, deliver a payload, deliver complete: after the
    payload the View State is the payload, not complete, no error; the
    complete notification then sets [complete] and leaves the payload and the
    (empty) error alone.  In any state, the complete callback changes only
    [complete] and the error callback changes only [error]. *)
Theorem C8_terminal_callbacks_frame
        (env : Collaborators) (props : JsVal) (src : SrcState env)
        (payload err : JsVal) (s : Component * World (SrcState env)) :
  state (fst (exec env [Mount; Deliver (Next payload)] (start env props src)))
  = mkState payload false (JStr EmptyString)
  /\ state (fst (exec env [Mount; Deliver (Next payload); Deliver Complete]
                   (start env props src)))
     = mkState payload true (JStr EmptyString)
  /\ state (fst (after (deliver env Complete) s))
     = mkState (response (state (fst s))) true (error (state (fst s)))
  /\ state (fst (after (deliver env (Error err)) s))
     = mkState (response (state (fst s))) (complete (state (fst s))) err.
Proof.
  assert (H0 : state (fst (after (componentDidMount env) (start env props src)))
               = mkState (JStr EmptyString) false (JStr EmptyString))
    by (rewrite mount_keeps_state; reflexivity).
  split; [| split; [| split]].
  - cbn [exec fold_left run_op]. rewrite after_deliver.
    cbn [fst state]. rewrite H0. reflexivity.
  - cbn [exec fold_left run_op]. rewrite !after_deliver.
    cbn [fst state]. rewrite H0. reflexivity.
  - rewrite after_deliver. reflexivity.
  - rewrite after_deliver. reflexivity.
Qed.

(** ** The initial View State *)

(** C10. The constructor gives the View State [response] the empty string,
    [complete] false and [error] the empty string, and mounting does not
    change it; the [message] of that empty string is [undefined], and that
    is what the first render shows as the error. *)
Theorem C10_initial_view_state
        (env : Collaborators) (props : JsVal) (src : SrcState env) :
  state (constructor props) = mkState (JStr EmptyString) false (JStr EmptyString)
  /\ state (fst (exec env [Mount] (start env props src)))
     = mkState (JStr EmptyString) false (JStr EmptyString)
  /\ get_prop (error (state (constructor props))) "message" = Ok JUndefined
  /\ render (constructor props)
     = Ok (Div [Div [Text "Response: "; Child (JStr (quote EmptyString))];
                Div [Text "Complete: "; Child (JStr "false")];
                Div [Text "Error: "; Child JUndefined]]).
Proof.
  split; [| split; [| split]]; try reflexivity.
  cbn [exec fold_left run_op]. rewrite mount_keeps_state. reflexivity.
Qed.

(** ** Releasing the handle *)

Section Release.

Variable env : Collaborators.

(** What one [componentWillUnmount] adds to the count of releases. *)
Lemma unmount_releases (s : Component * World (SrcState env)) :
  releases (trace (snd (after (componentWillUnmount env) s)))
  = releases (trace (snd s)) + (if truthy (subscription (fst s)) then 1 else 0).
Proof.
  destruct s as [c w]. unfold after. cbn [fst snd].
  destruct (subscription c) as [h |] eqn:E.
  - rewrite (unmount_held env c w h E). cbn [snd trace].
    rewrite releases_app. reflexivity.
  - rewrite (unmount_null env c w E). cbn [snd trace].
    rewrite releases_app. reflexivity.
Qed.

(** A run that never mounts keeps the field [null] and releases nothing. *)
Lemma never_mounted_idle (ops : list Op) (s : Component * World (SrcState env)) :
  subscription (fst s) = None ->
  subscription (fst (exec env (never_mounted ops) s)) = None
  /\ releases (trace (snd (exec env (never_mounted ops) s)))
     = releases (trace (snd s)).
Proof.
  revert s. induction ops as [| op ops IH]; intros s Hs; [split; [exact Hs | reflexivity] |].
  destruct op as [| | n]; cbn [never_mounted filter is_mount negb].
  - apply IH, Hs.
  - change (exec env (Unmount :: filter (fun op => negb (is_mount op)) ops) s)
      with (exec env (never_mounted ops) (after (componentWillUnmount env) s)).
    destruct (IH (after (componentWillUnmount env) s) (unmount_clears env s))
      as [H1 H2].
    split; [exact H1 |]. rewrite H2, unmount_releases, Hs. cbn [truthy]. lia.
  - change (exec env (Deliver n :: filter (fun op => negb (is_mount op)) ops) s)
      with (exec env (never_mounted ops) (after (deliver env n) s)).
    assert (Hd : subscription (fst (after (deliver env n) s)) = None)
      by (rewrite after_deliver; exact Hs).
    destruct (IH _ Hd) as [H1 H2].
    split; [exact H1 |]. rewrite H2, after_deliver. cbn [snd trace].
    rewrite releases_app. destruct n; cbn [logged releases]; lia.
Qed.

(** The field always agrees with the trace: it holds the handle that the
    last [subscribe] returned, unless it was released since. *)
Lemma field_follows_trace (ops : list Op) (s : Component * World (SrcState env)) :
  subscription (fst s) = held (trace (snd s)) ->
  subscription (fst (exec env ops s)) = held (trace (snd (exec env ops s))).
Proof.
  revert s. induction ops as [| op ops IH]; intros s Hs; [exact Hs |].
  change (exec env (op :: ops) s) with (exec env ops (after (run_op env op) s)).
  apply IH. destruct s as [c w]. cbn [fst snd] in Hs.
  destruct op as [| | n]; cbn [run_op]; unfold after.
  - destruct (mount_cases env c w) as [(h & s' & E) | (e & s' & E)];
      rewrite E; cbn [fst snd subscription trace].
    + rewrite snoc_three, held_snoc. reflexivity.
    + unfold held. rewrite fold_left_app. exact Hs.
  - destruct (subscription c) as [h |] eqn:E.
    + rewrite (unmount_held env c w h E). cbn [fst snd subscription trace].
      unfold held. rewrite fold_left_app. reflexivity.
    + rewrite (unmount_null env c w E). cbn [fst snd trace].
      rewrite held_snoc, E. cbn [held_step]. congruence.
  - rewrite deliver_eq. cbn [fst snd subscription trace].
    rewrite held_snoc. destruct n; exact Hs.
Qed.

End Release.

(** C5. On an instance on which [componentDidMount] was never run (the
    constructed instance after any calls other than mounting),
    [componentWillUnmount] returns normally, leaves the instance and the
    source as they are, and only writes its console line: no [unsubscribe()]
    is ever called. *)
Theorem C5_unmount_without_mount_is_noop
        (env : Collaborators) (props : JsVal) (src : SrcState env)
        (ops : list Op) :
  let s := exec env (never_mounted ops) (start env props src) in
  componentWillUnmount env s
  = (Ok tt, (fst s, mkWorld (source (snd s))
                      (trace (snd s) ++ [ConsoleLog (JStr "componentWillUnmount")])))
  /\ subscription (fst s) = None
  /\ releases (trace (snd (after (componentWillUnmount env) s))) = 0.
Proof.
  cbv zeta.
  destruct (never_mounted_idle env ops (start env props src) eq_refl) as [H1 H2].
  split; [| split; [exact H1 |]].
  - destruct (exec env (never_mounted ops) (start env props src)) as [c w].
    apply unmount_null. exact H1.
  - rewrite unmount_releases, H1, H2. reflexivity.
Qed.

(** C4. Two calls of [componentWillUnmount] in a row both return; together
    they call [unsubscribe()] at most once: the first call releases the held
    handle (if there is one) and clears the field, the second one releases
    nothing and leaves the source alone. *)
Theorem C4_unmount_twice_releases_once
        (env : Collaborators) (s : Component * World (SrcState env)) :
  let s1 := after (componentWillUnmount env) s in
  let s2 := after (componentWillUnmount env) s1 in
  outcome (componentWillUnmount env) s = Ok tt
  /\ outcome (componentWillUnmount env) s1 = Ok tt
  /\ subscription (fst s1) = None
  /\ releases (trace (snd s1))
     = releases (trace (snd s)) + (if truthy (subscription (fst s)) then 1 else 0)
  /\ releases (trace (snd s2)) = releases (trace (snd s1))
  /\ source (snd s2) = source (snd s1)
  /\ releases (trace (snd s2)) <= releases (trace (snd s)) + 1.
Proof.
  cbv zeta.
  pose proof (unmount_clears env s) as Hc.
  pose proof (unmount_releases env s) as H1.
  pose proof (unmount_releases env (after (componentWillUnmount env) s)) as H2.
  rewrite Hc in H2. cbn [truthy] in H2.
  repeat match goal with |- _ /\ _ => split end;
    try apply unmount_returns; try assumption.
  - lia.
  - destruct (after (componentWillUnmount env) s) as [c1 w1].
    cbn [fst] in Hc. unfold after. rewrite (unmount_null env c1 w1 Hc). reflexivity.
  - rewrite H2, H1. destruct (subscription (fst s)); cbn [truthy]; lia.
Qed.

(** ** Notifications after the release *)

Section Released.

Variable env : Collaborators.

(** On a mounted instance the callbacks are those of [observer]. *)
Lemma notify_mounted (n : Notification) :
  React.notify env React.Mounted n = deliver env n.
Proof. destruct n; reflexivity. Qed.

(** On an instance that is not mounted a callback writes its console line
    and returns; the update is dropped. *)
Lemma notify_dropped (ph : React.Phase) (n : Notification)
      (c : Component) (w : World (SrcState env)) :
  React.is_mounted ph = false ->
  React.notify env ph n (c, w)
  = (Ok tt, (c, mkWorld (source w) (trace w ++ [logged n])%list)).
Proof.
  intros H. destruct n; unfold React.notify, React.observer_of,
    React.enqueueSetState; rewrite H; reflexivity.
Qed.

Lemma run_dropped (ns : list Notification) (f : React.Fiber (SrcState env)) :
  React.is_mounted (React.phase f) = false ->
  React.run env (deliveries ns) f
  = React.mkFiber (React.phase f)
      (fst (React.sys f),
       mkWorld (source (snd (React.sys f)))
         (trace (snd (React.sys f)) ++ map logged ns)%list).
Proof.
  revert f. induction ns as [| n ns IH]; intros [ph [c [src t]]] H;
    cbn [React.phase React.sys fst snd source trace] in *.
  - cbn. rewrite app_nil_r. reflexivity.
  - cbn [deliveries map React.run fold_left]. fold (deliveries ns).
    change (fold_left (fun f op => React.step env op f) (deliveries ns))
      with (React.run env (deliveries ns)).
    assert (E : React.step env (Deliver n) (React.mkFiber ph (c, mkWorld src t))
                = React.mkFiber ph (c, mkWorld src (t ++ [logged n])%list)).
    { destruct ph; [| discriminate H |];
        unfold React.step, after; cbn [React.phase React.sys];
        rewrite (notify_dropped _ n c (mkWorld src t) H); reflexivity. }
    rewrite E, IH by exact H.
    cbn [React.phase React.sys fst snd source trace].
    rewrite <- app_assoc. reflexivity.
Qed.

End Released.

(** C1. Once React has unmounted the instance, which calls
    [componentWillUnmount] (that releases the held handle once and clears
    the field, leaving the View State alone), no callback changes the View
    State any more: every later next, complete or error returns normally,
    writes its console line, and its update is dropped, so [response],
    [complete] and [error] stay as they were at the release, whatever is
    delivered and however much. *)
Theorem C1_no_state_change_after_release
        (env : Collaborators) (f : React.Fiber (SrcState env))
        (ns : list Notification) (n : Notification) :
  let released := React.step env Unmount f in
  let later := React.run env (deliveries ns) released in
  React.is_mounted (React.phase released) = false
  /\ state (fst (React.sys released)) = state (fst (React.sys f))
  /\ (if React.is_mounted (React.phase f)
      then subscription (fst (React.sys released)) = None
           /\ releases (trace (snd (React.sys released)))
              = releases (trace (snd (React.sys f)))
                + (if truthy (subscription (fst (React.sys f))) then 1 else 0)
      else released = f)
  /\ state (fst (React.sys later)) = state (fst (React.sys f))
  /\ subscription (fst (React.sys later)) = subscription (fst (React.sys released))
  /\ source (snd (React.sys later)) = source (snd (React.sys released))
  /\ trace (snd (React.sys later))
     = (trace (snd (React.sys released)) ++ map logged ns)%list
  /\ outcome (React.notify env (React.phase released) n) (React.sys later) = Ok tt.
Proof.
  cbv zeta.
  assert (Hph : React.is_mounted (React.phase (React.step env Unmount f)) = false)
    by (destruct f as [[| |] s]; reflexivity).
  assert (Hst : state (fst (React.sys (React.step env Unmount f)))
                = state (fst (React.sys f))).
  { destruct f as [[| |] s]; try reflexivity.
    cbn [React.step React.phase React.sys React.teardown].
    apply unmount_keeps_state. }
  rewrite (run_dropped env ns _ Hph).
  cbn [React.sys React.phase fst snd source trace].
  repeat match goal with |- _ /\ _ => split end;
    try reflexivity; try assumption.
  - destruct f as [[| |] s]; cbn [React.is_mounted React.phase]; try reflexivity.
    cbn [React.step React.phase React.sys React.teardown].
    split; [apply unmount_clears | apply unmount_releases].
  - unfold outcome.
    rewrite (notify_dropped env _ n _ _ Hph). reflexivity.
Qed.

(** The runtime at work: a payload delivered while mounted is stored, one
    delivered after the unmount is not. *)
Example late_payload_is_dropped :
  response (state (fst (React.sys
    (React.run counting_source
       [Mount; Deliver (Next cpu42); Unmount; Deliver (Next (JStr "late"))]
       (React.create counting_source JNull 0)))))
  = cpu42.
Proof. reflexivity. Qed.

(** ** A request that cannot be built *)

(** When [graphqlObserve] throws, [componentDidMount] throws the same value
    and the error field keeps its initial empty string. *)
Lemma C2_thrown_failure_is_not_stored :
  outcome (componentDidMount throwing_source) (start throwing_source JNull 0)
  = Throw malformed
  /\ error (state (fst (after (componentDidMount throwing_source)
                          (start throwing_source JNull 0))))
     = JStr EmptyString
  /\ error (state (fst (after (componentDidMount throwing_source)
                          (start throwing_source JNull 0))))
     <> malformed.
Proof.
  split; [reflexivity | split; [reflexivity |]].
  vm_compute. discriminate.
Qed.

(** C2, as the code has it.  If [graphqlObserve] or [subscribe] throws,
    [componentDidMount] throws that value to its caller and leaves the
    instance (the View State and the field) as it was; a failure reaches the
    [error] field when the source hands it to the error callback. *)
Theorem C2_thrown_failure_propagates
        (env : Collaborators) (s : Component * World (SrcState env))
        (e : JsVal) (src' : SrcState env)
        (Hfail :
           graphqlObserve env (CONFIG_graphqlQueryPath env) request_init query
             (JObj []) JNull (source (snd s)) = (Throw e, src')
           \/ exists o src1,
               graphqlObserve env (CONFIG_graphqlQueryPath env) request_init query
                 (JObj []) JNull (source (snd s)) = (Ok o, src1)
               /\ subscribe env o (observer env) src1 = (Throw e, src')) :
  outcome (componentDidMount env) s = Throw e
  /\ fst (after (componentDidMount env) s) = fst s
  /\ error (state (fst (after (deliver env (Error e)) s))) = e.
Proof.
  split; [| split; [| rewrite after_deliver; reflexivity]];
    destruct s as [c w]; cbn [fst snd] in *; unfold outcome, after;
    unfold componentDidMount, invokeQuery, console_log, emit, call_source,
      set_subscription, bind, ret;
    cbn [fst snd source trace];
    destruct Hfail as [H | (o & src1 & H1 & H2)].
  - rewrite H. reflexivity.
  - rewrite H1. cbn [fst snd source trace]. rewrite H2. reflexivity.
  - rewrite H. reflexivity.
  - rewrite H1. cbn [fst snd source trace]. rewrite H2. reflexivity.
Qed.

Lemma C2_thrown_failure_propagates_witness :
  graphqlObserve throwing_source (CONFIG_graphqlQueryPath throwing_source)
    request_init query (JObj []) JNull
    (source (snd (start throwing_source JNull 0)))
  = (Throw malformed, 0)
  /\ outcome (componentDidMount throwing_source) (start throwing_source JNull 0)
     = Throw malformed
  /\ fst (after (componentDidMount throwing_source) (start throwing_source JNull 0))
     = fst (start throwing_source JNull 0)
  /\ error (state (fst (after (deliver throwing_source (Error malformed))
                          (start throwing_source JNull 0))))
     = malformed.
Proof.
  split; [reflexivity |].
  apply (C2_thrown_failure_propagates throwing_source
           (start throwing_source JNull 0) malformed 0).
  left. reflexivity.
Defined.

(** ** The terminal flags *)

(** An error notification that carries the empty string puts the [error]
    field back to the value the constructor gave it. *)
Lemma C6_empty_error_resets_error :
  unset (error (state (fst (exec counting_source
                              [Mount; Deliver (Error malformed)]
                              (start counting_source JNull 0)))))
  = false
  /\ unset (error (state (fst (exec counting_source
                                 [Mount; Deliver (Error malformed);
                                  Deliver (Error (JStr EmptyString))]
                                 (start counting_source JNull 0)))))
     = true.
Proof. split; reflexivity. Qed.

(** Delivering notifications never turns [complete] off. *)
Lemma complete_stays (env : Collaborators) (ns : list Notification)
      (s : Component * World (SrcState env)) :
  complete (state (fst s)) = true ->
  complete (state (fst (exec env (deliveries ns) s))) = true.
Proof.
  intros H. rewrite exec_deliveries. cbn [fst state complete].
  rewrite H. reflexivity.
Qed.

(** A stored error stays stored when every later error notification
    carries an error to store. *)
Lemma error_stays (ns : list Notification) (e0 : JsVal) :
  existsb carries_no_error ns = false ->
  error_set e0 = true ->
  error_set (last_error ns e0) = true.
Proof.
  revert e0. induction ns as [| n ns IH]; intros e0 Hns He0; [exact He0 |].
  cbn [existsb] in Hns. apply orb_false_iff in Hns. destruct Hns as [Hn Hns].
  destruct n as [p | | err]; cbn [last_error fold_left];
    try (apply IH; assumption).
  apply IH; [exact Hns |]. cbn [carries_no_error] in Hn.
  apply negb_false_iff in Hn. exact Hn.
Qed.

(** C6, as the code has it.  A [complete] that is true stays true under
    every further notification, with no condition.  An [error] that is set
    (not the empty string, [undefined] or [null]) stays set over any further
    notifications of which no error carries the empty string, [undefined] or
    [null]: the next and complete callbacks never write [error], and the
    error callback overwrites it with the value it is given. *)
Theorem C6_terminal_flags_stay_set
        (env : Collaborators) (s : Component * World (SrcState env))
        (any further : list Notification) (payload : JsVal)
        (Hfurther : existsb carries_no_error further = false) :
  (complete (state (fst s)) = true ->
   complete (state (fst (exec env (deliveries any) s))) = true)
  /\ (error_set (error (state (fst s))) = true ->
      error_set (error (state (fst (exec env (deliveries further) s)))) = true)
  /\ error (state (fst (after (deliver env (Next payload)) s)))
     = error (state (fst s))
  /\ error (state (fst (after (deliver env Complete) s)))
     = error (state (fst s)).
Proof.
  split; [apply complete_stays |].
  split; [| split; rewrite after_deliver; reflexivity].
  intros H. rewrite exec_deliveries. cbn [fst state error].
  apply error_stays; assumption.
Qed.

Lemma C6_terminal_flags_stay_set_witness :
  existsb carries_no_error late_notifications = false
  /\ complete (state (fst terminal_run)) = true
  /\ error_set (error (state (fst terminal_run))) = true
  /\ complete (state (fst (exec counting_source
                             (deliveries [Error (JStr EmptyString); Next cpu42])
                             terminal_run)))
     = true
  /\ error_set (error (state (fst (exec counting_source
                                      (deliveries late_notifications)
                                      terminal_run))))
     = true.
Proof.
  destruct (C6_terminal_flags_stay_set counting_source terminal_run
              [Error (JStr EmptyString); Next cpu42] late_notifications JNull
              eq_refl) as (Hc & He & _).
  split; [reflexivity |].
  split; [reflexivity |].
  split; [reflexivity |].
  split; [apply Hc | apply He]; reflexivity.
Defined.

(** ** Rendering the error *)

(** After the error callback was given [undefined], the error has no message
    and [render] throws a TypeError. *)
Lemma C9_render_throws_on_undefined_error :
  render (fst (exec counting_source [Mount; Deliver (Error JUndefined)]
                 (start counting_source JNull 0)))
  = Throw (TypeError "Cannot read properties of undefined (reading 'message')").
Proof. reflexivity. Qed.

(** C9, as the code has it.  For every View State whose [error] is neither
    [undefined] nor [null], [render] returns: it shows the [message] of the
    error when it has one and [undefined] when it has none, as for the empty
    string of the state that never saw an error. *)
Theorem C9_render_returns_unless_nullish
        (this : Component)
        (Herror : nullish (error (state this)) = false) :
  render this
  = Ok (Div [Div [Text "Response: ";
                  Child (match JSON_stringify (response (state this)) with
                         | Some s => JStr s
                         | None => JUndefined
                         end)];
             Div [Text "Complete: ";
                  Child (JStr (if complete (state this) then "true" else "false"))];
             Div [Text "Error: "; Child (message_of (error (state this)))]])
  /\ (forall s, message_of (JStr s) = JUndefined)
  /\ (forall props, lookup "message" props = None ->
                    message_of (JObj props) = JUndefined).
Proof.
  split; [| split; [reflexivity | intros props H; cbn [message_of]; rewrite H; reflexivity]].
  unfold render. destruct (error (state this)) as [| | b | z | str | items | props];
    cbn [nullish] in Herror; try discriminate; cbn [get_prop message_of];
    try reflexivity.
  destruct (lookup "message" props); reflexivity.
Qed.

Lemma C9_render_returns_unless_nullish_witness :
  nullish (error (state (constructor JNull))) = false
  /\ render (constructor JNull)
     = Ok (Div [Div [Text "Response: "; Child (JStr (quote EmptyString))];
                Div [Text "Complete: "; Child (JStr "false")];
                Div [Text "Error: "; Child JUndefined]]).
Proof.
  split; [reflexivity |].
  exact (proj1 (C9_render_returns_unless_nullish (constructor JNull) eq_refl)).
Defined.

(** * Further properties of the component *)

(** X3. The stored handle and the state of the source after any run are
    those after its lifecycle calls alone: no notification changes which
    handle is held or calls into the source. *)
Theorem X3_handle_ignores_notifications
        (env : Collaborators) (ops : list Op)
        (s : Component * World (SrcState env)) :
  subscription (fst (exec env ops s))
  = subscription (fst (exec env (lifecycle_of ops) s))
  /\ source (snd (exec env ops s))
     = source (snd (exec env (lifecycle_of ops) s)).
Proof. apply lifecycle_of_run; reflexivity. Qed.

(** ** Acquiring and releasing over a run *)

Section Discipline.

Variable env : Collaborators.

Lemma acquisitions_app (t1 t2 : list Effect) :
  acquisitions (t1 ++ t2) = acquisitions t1 + acquisitions t2.
Proof.
  induction t1 as [| e t1 IH]; [reflexivity |].
  destruct e; cbn [app acquisitions]; rewrite IH; reflexivity.
Qed.

Lemma disciplined_app (t1 t2 : list Effect) (cur : option Handle) :
  disciplined cur (t1 ++ t2)
  = disciplined cur t1 && disciplined (fold_left held_step t1 cur) t2.
Proof.
  revert cur. induction t1 as [| e t1 IH]; intros cur; [reflexivity |].
  destruct e; cbn [app disciplined fold_left held_step]; try apply IH.
  destruct cur as [h' |]; [| reflexivity].
  rewrite IH. apply andb_assoc.
Qed.

Lemma balanced_extend (field field' : option Handle) (t t' : list Effect) :
  balanced field t ->
  field' = fold_left held_step t' field ->
  disciplined field t' = true ->
  releases t' + (if truthy field' then 1 else 0)
  <= acquisitions t' + (if truthy field then 1 else 0) ->
  balanced field' (t ++ t').
Proof.
  unfold balanced. intros (Hh & Hd & Hb) Hf Hd' Hb'.
  rewrite disciplined_app, acquisitions_app, releases_app, Hd.
  unfold held in *. rewrite fold_left_app, <- Hh, Hd'.
  repeat split; [exact Hf | lia].
Qed.

Lemma balanced_step (op : Op) (s : Component * World (SrcState env)) :
  balanced (subscription (fst s)) (trace (snd s)) ->
  balanced (subscription (fst (after (run_op env op) s)))
           (trace (snd (after (run_op env op) s))).
Proof.
  destruct s as [c w]. cbn [fst snd]. intros H.
  destruct op as [| | n]; cbn [run_op]; unfold after.
  - destruct (mount_cases env c w) as [(h & s' & E) | (e & s' & E)];
      rewrite E; cbn [fst snd subscription trace];
      apply (balanced_extend (subscription c)); try exact H; try reflexivity;
      cbn [releases acquisitions truthy]; destruct (truthy (subscription c)); lia.
  - destruct (subscription c) as [h |] eqn:E.
    + rewrite (unmount_held env c w h E). cbn [fst snd subscription trace].
      apply (balanced_extend (Some h)); try exact H; try reflexivity.
      cbn [disciplined]. rewrite Nat.eqb_refl. reflexivity.
    + rewrite (unmount_null env c w E). cbn [fst snd trace]. rewrite E.
      apply (balanced_extend None); try exact H; reflexivity.
  - rewrite deliver_eq. cbn [fst snd subscription trace].
    apply (balanced_extend (subscription c)); try exact H;
      destruct n; try reflexivity; cbn [logged releases acquisitions]; lia.
Qed.

Lemma balanced_run (ops : list Op) (s : Component * World (SrcState env)) :
  balanced (subscription (fst s)) (trace (snd s)) ->
  balanced (subscription (fst (exec env ops s))) (trace (snd (exec env ops s))).
Proof.
  revert s. induction ops as [| op ops IH]; intros s H; [exact H |].
  apply IH, balanced_step, H.
Qed.

Lemma balanced_start (props : JsVal) (src : SrcState env) :
  balanced (subscription (fst (start env props src)))
           (trace (snd (start env props src))).
Proof. unfold balanced. cbn. repeat split. lia. Qed.

(** [componentDidMount] never calls [unsubscribe()]. *)
Lemma mount_releases_nothing (s : Component * World (SrcState env)) :
  releases (trace (snd (after (componentDidMount env) s)))
  = releases (trace (snd s)).
Proof.
  destruct s as [c w]. unfold after.
  destruct (mount_cases env c w) as [(h & s' & E) | (e & s' & E)];
    rewrite E; cbn [snd trace]; rewrite releases_app; cbn [releases]; lia.
Qed.

End Discipline.

(** X4. In every run of the constructed instance, whatever the order of the
    calls, each [unsubscribe()] is made on the handle that the last
    [subscribe] returned and that was not released since; so the instance
    never releases a handle twice or a handle it does not hold, and the
    releases, plus one if a handle is held, never exceed the handles
    acquired. *)
Theorem X4_releases_only_what_is_held
        (env : Collaborators) (props : JsVal) (src : SrcState env)
        (ops : list Op) :
  let s := exec env ops (start env props src) in
  disciplined None (trace (snd s)) = true
  /\ releases (trace (snd s)) + (if truthy (subscription (fst s)) then 1 else 0)
     <= acquisitions (trace (snd s)).
Proof.
  cbv zeta.
  destruct (balanced_run env ops _ (balanced_start env props src)) as (_ & Hd & Hb).
  split; assumption.
Qed.

Section Lifecycle.

Variable env : Collaborators.

Lemma releases_logged (ns : list Notification) :
  releases (map logged ns) = 0.
Proof. induction ns as [| n ns IH]; [reflexivity |]. destruct n; exact IH. Qed.

Lemma acquisitions_logged (ns : list Notification) :
  acquisitions (map logged ns) = 0.
Proof. induction ns as [| n ns IH]; [reflexivity |]. destruct n; exact IH. Qed.

(** The error field after a run in which nothing stores [undefined] or
    [null] can be read from, if it could before. *)
Lemma last_error_not_nullish (ops : list Op) (e0 : JsVal) :
  existsb stores_nullish ops = false ->
  nullish e0 = false ->
  nullish (last_error (notifications_of ops) e0) = false.
Proof.
  revert e0. induction ops as [| op ops IH]; intros e0 Hops He0; [exact He0 |].
  cbn [existsb] in Hops. apply orb_false_iff in Hops. destruct Hops as [Hop Hops].
  destruct op as [| | [p | | err]];
    cbn [notifications_of flat_map app last_error fold_left];
    apply IH; assumption.
Qed.

(** [render] by cases on the error. *)
Lemma render_cases (this : Component) :
  render this
  = if nullish (error (state this))
    then Throw (message_TypeError (error (state this)))
    else Ok (Div [Div [Text "Response: ";
                       Child (shown_response (response (state this)))];
                  Div [Text "Complete: ";
                       Child (JStr (if complete (state this)
                                    then "true" else "false"))];
                  Div [Text "Error: "; Child (message_of (error (state this)))]]).
Proof.
  unfold render, shown_response.
  destruct (error (state this)) as [| | b | z | str | items | props];
    try reflexivity.
  cbn [get_prop nullish message_of]. destruct (lookup "message" props); reflexivity.
Qed.

End Lifecycle.

(** X5. The whole life of an instance whose mount returns: mount, any
    notifications, unmount.  The trace is the mount's console line, the
    request and the handle returned, one console line per notification, the
    unmount's console line and the [unsubscribe()] on that same handle; one
    handle was acquired, it was released once, also after a complete or an
    error, and the field is [null] again. *)
Theorem X5_lifecycle_releases_the_handle_once
        (env : Collaborators) (props : JsVal) (src : SrcState env)
        (ns : list Notification)
        (Hmount : outcome (componentDidMount env) (start env props src) = Ok tt) :
  let s := exec env (Mount :: deliveries ns ++ [Unmount]) (start env props src) in
  exists h,
    trace (snd s)
    = ([ConsoleLog (JStr "componentDidMount");
        Observe (CONFIG_graphqlQueryPath env) request_init query (JObj []) JNull;
        Subscribed h]
       ++ map logged ns
       ++ [ConsoleLog (JStr "componentWillUnmount"); Unsubscribe h])%list
    /\ subscription (fst s) = None
    /\ acquisitions (trace (snd s)) = 1
    /\ releases (trace (snd s)) = 1.
Proof.
  cbv zeta. rewrite exec_cons, exec_app. cbn [run_op].
  unfold outcome, after, start in *.
  destruct (mount_cases env (constructor props) (mkWorld src []))
    as [(h & s' & E) | (e & s' & E)]; rewrite E in *; [| discriminate Hmount].
  cbn [snd]. rewrite exec_deliveries. cbn [exec fold_left run_op fst snd].
  unfold after.
  match goal with
  | |- context [componentWillUnmount env (?c, ?w)] =>
      rewrite (unmount_held env c w h eq_refl)
  end.
  cbn [fst snd subscription trace app].
  exists h.
  split; [reflexivity |]. split; [reflexivity |].
  cbn [acquisitions releases].
  rewrite acquisitions_app, releases_app, acquisitions_logged, releases_logged.
  split; reflexivity.
Qed.

Lemma X5_lifecycle_releases_the_handle_once_witness :
  outcome (componentDidMount counting_source) (start counting_source JNull 0) = Ok tt
  /\ exists h,
      trace (snd (exec counting_source
                    (Mount :: deliveries late_notifications ++ [Unmount])
                    (start counting_source JNull 0)))
      = ([ConsoleLog (JStr "componentDidMount");
          Observe (CONFIG_graphqlQueryPath counting_source) request_init query
            (JObj []) JNull;
          Subscribed h]
         ++ map logged late_notifications
         ++ [ConsoleLog (JStr "componentWillUnmount"); Unsubscribe h])%list
      /\ subscription
           (fst (exec counting_source
                   (Mount :: deliveries late_notifications ++ [Unmount])
                   (start counting_source JNull 0)))
         = None
      /\ acquisitions
           (trace (snd (exec counting_source
                          (Mount :: deliveries late_notifications ++ [Unmount])
                          (start counting_source JNull 0))))
         = 1
      /\ releases
           (trace (snd (exec counting_source
                          (Mount :: deliveries late_notifications ++ [Unmount])
                          (start counting_source JNull 0))))
         = 1.
Proof.
  split; [reflexivity |].
  apply (X5_lifecycle_releases_the_handle_once counting_source JNull 0
           late_notifications).
  reflexivity.
Defined.

(** X6. [componentDidMount] never calls [unsubscribe()].  So when it returns
    on an instance that already holds a handle, the held handle is
    overwritten without being released: after the next
    [componentWillUnmount] the field is [null] and still fewer handles were
    released than acquired. *)
Theorem X6_second_mount_drops_the_held_handle
        (env : Collaborators) (props : JsVal) (src : SrcState env)
        (ops : list Op)
        (Hheld : truthy (subscription (fst (exec env ops (start env props src))))
                 = true)
        (Hmount : outcome (componentDidMount env)
                    (exec env ops (start env props src)) = Ok tt) :
  let s := exec env ops (start env props src) in
  releases (trace (snd (after (componentDidMount env) s)))
  = releases (trace (snd s))
  /\ subscription (fst (exec env [Mount; Unmount] s)) = None
  /\ releases (trace (snd (exec env [Mount; Unmount] s)))
     < acquisitions (trace (snd (exec env [Mount; Unmount] s))).
Proof.
  cbv zeta.
  destruct (balanced_run env ops _ (balanced_start env props src)) as (_ & _ & Hb).
  rewrite Hheld in Hb.
  split; [apply mount_releases_nothing |].
  cbn [exec fold_left run_op].
  split; [apply unmount_clears |].
  rewrite unmount_releases.
  destruct (exec env ops (start env props src)) as [c w].
  unfold outcome, after in *. cbn [fst snd] in *.
  destruct (mount_cases env c w) as [(h & s' & E) | (e & s' & E)];
    rewrite E in *; [| discriminate Hmount].
  cbn [fst snd subscription trace truthy].
  match goal with
  | |- context [componentWillUnmount env (?c1, ?w1)] =>
      rewrite (unmount_held env c1 w1 h eq_refl)
  end.
  cbn [fst snd trace].
  rewrite !acquisitions_app, !releases_app. cbn [acquisitions releases]. lia.
Qed.

Lemma X6_second_mount_drops_the_held_handle_witness :
  truthy (subscription (fst (exec counting_source [Mount]
                               (start counting_source JNull 0)))) = true
  /\ outcome (componentDidMount counting_source)
       (exec counting_source [Mount] (start counting_source JNull 0)) = Ok tt
  /\ subscription
       (fst (exec counting_source [Mount; Unmount]
               (exec counting_source [Mount] (start counting_source JNull 0))))
     = None
  /\ releases
       (trace (snd (exec counting_source [Mount; Unmount]
                      (exec counting_source [Mount]
                         (start counting_source JNull 0)))))
     < acquisitions
         (trace (snd (exec counting_source [Mount; Unmount]
                        (exec counting_source [Mount]
                           (start counting_source JNull 0))))).
Proof.
  split; [reflexivity |]. split; [reflexivity |].
  exact (proj2 (X6_second_mount_drops_the_held_handle counting_source JNull 0
                  [Mount] eq_refl eq_refl)).
Defined.

(** ** What is shown *)

(** X8. Along every run of the constructed instance in which the error
    callback is never given [undefined] or [null], [render] returns. *)
Theorem X8_render_returns_along_runs
        (env : Collaborators) (props : JsVal) (src : SrcState env)
        (ops : list Op)
        (Hops : existsb stores_nullish ops = false) :
  exists node, render (fst (exec env ops (start env props src))) = Ok node.
Proof.
  rewrite render_cases.
  assert (H : nullish (error (state (fst (exec env ops (start env props src)))))
              = false).
  { rewrite state_of_run, exec_deliveries. cbn [fst state error].
    apply last_error_not_nullish; [exact Hops | reflexivity]. }
  rewrite H. eexists. reflexivity.
Qed.

Lemma X8_render_returns_along_runs_witness :
  existsb stores_nullish
    [Mount; Deliver (Next cpu42); Deliver (Error malformed); Unmount] = false
  /\ exists node,
      render (fst (exec counting_source
                     [Mount; Deliver (Next cpu42); Deliver (Error malformed); Unmount]
                     (start counting_source JNull 0)))
      = Ok node.
Proof.
  split; [reflexivity |].
  apply (X8_render_returns_along_runs counting_source JNull 0
           [Mount; Deliver (Next cpu42); Deliver (Error malformed); Unmount]).
  reflexivity.
Defined.

(** ** The routes of the application *)

(** X11. Whenever the catch-all path [/] matches the location, the
    application shows exactly one page, and it is [Home] only when none of
    the four page paths matches: the catch-all route comes last and never
    hides a page. *)
Theorem X11_home_is_the_fallback
        (matches : string -> string -> bool) (location : string)
        (Hroot : matches "/" location = true) :
  exists page,
    snd (App.render matches location) = Some page
    /\ (page = App.Home <->
        existsb (fun path => matches path location) App.page_paths = false).
Proof.
  unfold App.render, App.routes, App.page_paths.
  cbn [snd App.Switch existsb].
  destruct (matches "/observable-stream-query" location);
    [eexists; split; [reflexivity | split; intros H; discriminate H] |].
  destruct (matches "/observable-fetch-query" location);
    [eexists; split; [reflexivity | split; intros H; discriminate H] |].
  destruct (matches "/observable-stream-subscription" location);
    [eexists; split; [reflexivity | split; intros H; discriminate H] |].
  destruct (matches "/observable-ws-subscription" location);
    [eexists; split; [reflexivity | split; intros H; discriminate H] |].
  rewrite Hroot. eexists. split; [reflexivity | split; reflexivity].
Qed.

Lemma X11_home_is_the_fallback_witness :
  App.prefix_matcher "/" "/about" = true
  /\ exists page,
      snd (App.render App.prefix_matcher "/about") = Some page
      /\ (page = App.Home <->
          existsb (fun path => App.prefix_matcher path "/about") App.page_paths
          = false).
Proof.
  split; [reflexivity |].
  apply (X11_home_is_the_fallback App.prefix_matcher "/about").
  reflexivity.
Defined.

(** X12. Every link of the navigation leads to the page it is labelled
    with: for a matcher under which each page path matches itself and no
    page path matches another one, the page shown at a link's target is the
    component whose name is the link's text. *)
Theorem X12_links_lead_to_their_pages
        (matches : string -> string -> bool)
        (Hself : forallb (fun p => matches p p) App.page_paths = true)
        (Hother : forallb (fun p =>
                             forallb (fun q => String.eqb p q || negb (matches p q))
                                     App.page_paths)
                          App.page_paths = true) :
  forallb (fun link =>
             match snd (App.render matches (fst link)) with
             | Some page => String.eqb (App.name_of page) (snd link)
             | None => false
             end) App.links
  = true.
Proof.
  unfold App.page_paths in *. cbn [forallb String.eqb Ascii.eqb Bool.eqb orb] in *.
  repeat match goal with
         | H : _ && _ = true |- _ =>
             apply andb_true_iff in H; destruct H
         | H : negb _ = true |- _ => apply negb_true_iff in H
         end.
  unfold App.render, App.links, App.routes.
  cbn [forallb fst snd App.Switch].
  repeat match goal with
         | H : matches _ _ = _ |- _ => rewrite H; clear H
         end.
  reflexivity.
Qed.

Lemma X12_links_lead_to_their_pages_witness :
  forallb (fun p => App.prefix_matcher p p) App.page_paths = true
  /\ forallb (fun p =>
                forallb (fun q => String.eqb p q || negb (App.prefix_matcher p q))
                        App.page_paths)
             App.page_paths = true
  /\ forallb (fun link =>
                match snd (App.render App.prefix_matcher (fst link)) with
                | Some page => String.eqb (App.name_of page) (snd link)
                | None => false
                end) App.links
     = true.
Proof.
  split; [reflexivity |]. split; [reflexivity |].
  apply (X12_links_lead_to_their_pages App.prefix_matcher); reflexivity.
Defined.

(** ** Calls into the source *)

Section SourceCalls.

Variable env : Collaborators.

Lemma requests_app (t1 t2 : list Effect) :
  requests (t1 ++ t2) = requests t1 + requests t2.
Proof.
  induction t1 as [| e t1 IH]; [reflexivity |].
  destruct e; cbn [app requests]; rewrite IH; reflexivity.
Qed.

(** What one call adds to the requests, to the handles acquired and to the
    releases. *)
Lemma counts_step (op : Op) (s : Component * World (SrcState env)) :
  requests (trace (snd (after (run_op env op) s)))
  = requests (trace (snd s)) + (if is_mount op then 1 else 0)
  /\ acquisitions (trace (snd (after (run_op env op) s)))
     <= acquisitions (trace (snd s)) + (if is_mount op then 1 else 0)
  /\ releases (trace (snd (after (run_op env op) s)))
     <= releases (trace (snd s)) + (if is_unmount op then 1 else 0).
Proof.
  destruct s as [c w]. cbn [fst snd].
  destruct op as [| | n]; cbn [run_op is_mount is_unmount]; unfold after.
  - destruct (mount_cases env c w) as [(h & s' & E) | (e & s' & E)];
      rewrite E; cbn [snd trace];
      rewrite requests_app, acquisitions_app, releases_app;
      cbn [requests acquisitions releases]; lia.
  - destruct (subscription c) as [h |] eqn:E.
    + rewrite (unmount_held env c w h E). cbn [snd trace].
      rewrite requests_app, acquisitions_app, releases_app.
      cbn [requests acquisitions releases]; lia.
    + rewrite (unmount_null env c w E). cbn [snd trace].
      rewrite requests_app, acquisitions_app, releases_app.
      cbn [requests acquisitions releases]; lia.
  - rewrite deliver_eq. cbn [snd trace].
    rewrite requests_app, acquisitions_app, releases_app.
    destruct n; cbn [logged requests acquisitions releases]; lia.
Qed.

Lemma counts_run (ops : list Op) (s : Component * World (SrcState env)) :
  requests (trace (snd (exec env ops s))) = requests (trace (snd s)) + mounts ops
  /\ acquisitions (trace (snd (exec env ops s)))
     <= acquisitions (trace (snd s)) + mounts ops
  /\ releases (trace (snd (exec env ops s)))
     <= releases (trace (snd s)) + unmounts ops.
Proof.
  revert s. induction ops as [| op ops IH]; intros s.
  - unfold mounts, unmounts. cbn. lia.
  - change (exec env (op :: ops) s) with (exec env ops (after (run_op env op) s)).
    destruct (IH (after (run_op env op) s)) as (H1 & H2 & H3).
    destruct (counts_step op s) as (S1 & S2 & S3).
    unfold mounts, unmounts in *. cbn [filter].
    destruct op; cbn [is_mount is_unmount length] in *; lia.
Qed.

End SourceCalls.

(** X13. [invokeQuery] opens the feed and returns the handle without
    storing it: whether it returns or throws, the instance (the field and
    the View State) is as before and nothing was released; when it returns,
    the handle it returns is the one the source just gave. *)
Theorem X13_invokeQuery_stores_nothing
        (env : Collaborators) (s : Component * World (SrcState env)) :
  fst (after (invokeQuery env) s) = fst s
  /\ releases (trace (snd (after (invokeQuery env) s))) = releases (trace (snd s))
  /\ match outcome (invokeQuery env) s with
     | Ok h =>
         trace (snd (after (invokeQuery env) s))
         = (trace (snd s)
            ++ [Observe (CONFIG_graphqlQueryPath env) request_init query
                  (JObj []) JNull;
                Subscribed h])%list
     | Throw _ =>
         trace (snd (after (invokeQuery env) s))
         = (trace (snd s)
            ++ [Observe (CONFIG_graphqlQueryPath env) request_init query
                  (JObj []) JNull])%list
     end.
Proof.
  destruct s as [c w]. unfold after, outcome.
  unfold invokeQuery, emit, call_source, bind, ret. cbn [fst snd source trace].
  destruct (graphqlObserve env (CONFIG_graphqlQueryPath env) request_init query
              (JObj []) JNull (source w)) as [[o | e] src1];
    cbn [fst snd source trace].
  - destruct (subscribe env o (observer env) src1) as [[h | e] src2];
      cbn [fst snd source trace];
      repeat rewrite <- app_assoc; rewrite ?releases_app; cbn [app releases];
      (split; [reflexivity | split; [lia | reflexivity]]).
  - rewrite releases_app. cbn [releases].
    split; [reflexivity | split; [lia | reflexivity]].
Qed.

(** X14. In every run the source is asked once per [componentDidMount] and
    never otherwise: the requests in the trace are as many as the mounts; at
    most one handle is acquired per mount and at most one released per
    [componentWillUnmount]; notifications cause neither. *)
Theorem X14_one_request_per_mount
        (env : Collaborators) (props : JsVal) (src : SrcState env)
        (ops : list Op) :
  let s := exec env ops (start env props src) in
  requests (trace (snd s)) = mounts ops
  /\ acquisitions (trace (snd s)) <= mounts ops
  /\ releases (trace (snd s)) <= unmounts ops.
Proof.
  cbv zeta. destruct (counts_run env ops (start env props src)) as (H1 & H2 & H3).
  cbn [start snd trace requests acquisitions releases] in *. lia.
Qed.

(** ** One handle at a time *)

Section OneHandle.

Variable env : Collaborators.

Lemma settled_unmount (s : Component * World (SrcState env)) :
  settled (subscription (fst s)) (trace (snd s)) ->
  settled (subscription (fst (after (componentWillUnmount env) s)))
          (trace (snd (after (componentWillUnmount env) s))).
Proof.
  unfold settled. intros H.
  rewrite unmount_clears, unmount_releases. cbn [truthy].
  destruct s as [c w]. unfold after. cbn [fst snd] in *.
  destruct (subscription c) as [h |] eqn:E.
  - rewrite (unmount_held env c w h E). cbn [snd trace truthy] in *.
    rewrite acquisitions_app. cbn [acquisitions]. lia.
  - rewrite (unmount_null env c w E). cbn [snd trace truthy] in *.
    rewrite acquisitions_app. cbn [acquisitions]. lia.
Qed.

Lemma settled_mount (s : Component * World (SrcState env)) :
  subscription (fst s) = None ->
  settled (subscription (fst s)) (trace (snd s)) ->
  settled (subscription (fst (after (componentDidMount env) s)))
          (trace (snd (after (componentDidMount env) s)))
  /\ match outcome (componentDidMount env) s with
     | Ok _ => truthy (subscription (fst (after (componentDidMount env) s))) = true
     | Throw _ => subscription (fst (after (componentDidMount env) s)) = None
     end.
Proof.
  unfold settled. destruct s as [c w]. cbn [fst snd]. intros E H.
  rewrite E in H. cbn [truthy] in H. unfold after, outcome.
  destruct (mount_cases env c w) as [(h & s' & Em) | (e & s' & Em)];
    rewrite Em; cbn [fst snd subscription trace truthy];
    rewrite acquisitions_app, releases_app; cbn [acquisitions releases].
  - split; [lia | reflexivity].
  - rewrite E. cbn [truthy]. split; [lia | reflexivity].
Qed.

Lemma settled_deliver (n : Notification) (s : Component * World (SrcState env)) :
  settled (subscription (fst s)) (trace (snd s)) ->
  settled (subscription (fst (after (deliver env n) s)))
          (trace (snd (after (deliver env n) s))).
Proof.
  unfold settled. intros H. rewrite after_deliver. cbn [fst snd subscription trace].
  rewrite acquisitions_app, releases_app.
  destruct n; cbn [logged acquisitions releases]; lia.
Qed.

(** Direct calls that respect the precondition of mounting. *)
Lemma settled_idle_run (ops : list Op) (s : Component * World (SrcState env)) :
  mounts_when_idle env ops s = true ->
  settled (subscription (fst s)) (trace (snd s)) ->
  settled (subscription (fst (exec env ops s))) (trace (snd (exec env ops s))).
Proof.
  revert s. induction ops as [| op ops IH]; intros s Hidle H; [exact H |].
  cbn [mounts_when_idle] in Hidle. apply andb_true_iff in Hidle.
  destruct Hidle as [Hop Hrest]. rewrite exec_cons. apply IH; [exact Hrest |].
  destruct op as [| | n]; cbn [run_op is_mount] in *.
  - apply settled_mount; [| exact H].
    apply negb_true_iff in Hop. destruct (subscription (fst s)); [discriminate | reflexivity].
  - apply settled_unmount, H.
  - apply settled_deliver, H.
Qed.

(** What the runtime keeps: the handles are settled, and only a mounted
    instance holds one. *)
Lemma runtime_step (op : Op) (f : React.Fiber (SrcState env)) :
  settled (subscription (fst (React.sys f))) (trace (snd (React.sys f)))
  /\ React.is_mounted (React.phase f)
     || negb (truthy (subscription (fst (React.sys f)))) = true ->
  settled (subscription (fst (React.sys (React.step env op f))))
          (trace (snd (React.sys (React.step env op f))))
  /\ React.is_mounted (React.phase (React.step env op f))
     || negb (truthy (subscription (fst (React.sys (React.step env op f))))) = true.
Proof.
  destruct f as [ph s]. cbn [React.phase React.sys]. intros [H Hm].
  assert (Htd : forall s',
             settled (subscription (fst s')) (trace (snd s')) ->
             settled (subscription (fst (React.sys (React.teardown env s'))))
                     (trace (snd (React.sys (React.teardown env s'))))
             /\ React.is_mounted (React.phase (React.teardown env s'))
                || negb (truthy (subscription
                                   (fst (React.sys (React.teardown env s'))))) = true).
  { intros s' H'. cbn [React.teardown React.phase React.sys React.is_mounted orb].
    split; [apply settled_unmount, H' | rewrite unmount_clears; reflexivity]. }
  destruct op as [| | n], ph; cbn [React.step React.phase React.sys];
    try (split; assumption).
  - cbn [React.is_mounted orb] in Hm. apply negb_true_iff in Hm.
    assert (E : subscription (fst s) = None)
      by (destruct (subscription (fst s)); [discriminate | reflexivity]).
    destruct (settled_mount s E H) as [H1 H2].
    destruct (outcome (componentDidMount env) s).
    + cbn [React.phase React.sys React.is_mounted orb]. split; [exact H1 | reflexivity].
    + apply Htd, H1.
  - apply Htd, H.
  - unfold after. destruct s as [c w].
    rewrite (notify_dropped env React.Constructed n c w eq_refl).
    cbn [React.phase React.sys fst snd trace] in *. split; [| exact Hm].
    unfold settled in *. rewrite acquisitions_app, releases_app.
    destruct n; cbn [logged acquisitions releases]; lia.
  - rewrite notify_mounted.
    pose proof (settled_deliver n s H) as Hd.
    destruct (render (fst (after (deliver env n) s))).
    + cbn [React.phase React.sys React.is_mounted orb]. split; [exact Hd | reflexivity].
    + apply Htd. rewrite after_deliver in *. exact Hd.
  - unfold after. destruct s as [c w].
    rewrite (notify_dropped env React.Unmounted n c w eq_refl).
    cbn [React.phase React.sys fst snd trace] in *. split; [| exact Hm].
    unfold settled in *. rewrite acquisitions_app, releases_app.
    destruct n; cbn [logged acquisitions releases]; lia.
Qed.

Lemma runtime_run (ops : list Op) (f : React.Fiber (SrcState env)) :
  settled (subscription (fst (React.sys f))) (trace (snd (React.sys f)))
  /\ React.is_mounted (React.phase f)
     || negb (truthy (subscription (fst (React.sys f)))) = true ->
  settled (subscription (fst (React.sys (React.run env ops f))))
          (trace (snd (React.sys (React.run env ops f))))
  /\ React.is_mounted (React.phase (React.run env ops f))
     || negb (truthy (subscription (fst (React.sys (React.run env ops f))))) = true.
Proof.
  revert f. induction ops as [| op ops IH]; intros f H; [exact H |].
  cbn [React.run fold_left].
  change (fold_left (fun f op => React.step env op f) ops)
    with (React.run env ops).
  apply IH, runtime_step, H.
Qed.

End OneHandle.

(** C7. At every instant of an instance's life under React (any events, in
    any order, React mounting it once) as many handles are open as the field
    holds, none or one: every handle acquired has been released but for the
    one held, and only a mounted instance holds one.  The same holds for
    direct calls of the methods as long as [componentDidMount] is called
    while the field is [null].  The field is the handle that the last
    [subscribe] returned unless released since; it is [null] before the
    mount and after every [componentWillUnmount]; a [componentDidMount]
    whose [graphqlObserve] and [subscribe] return stores exactly the handle
    that [subscribe] returned, and one that throws leaves the field alone;
    no notification changes the field. *)
Theorem C7_at_most_one_handle
        (env : Collaborators) (props : JsVal) (src : SrcState env)
        (ops : list Op) (n : Notification) :
  let f := React.run env ops (React.create env props src) in
  let s := exec env ops (start env props src) in
  settled (subscription (fst (React.sys f))) (trace (snd (React.sys f)))
  /\ React.is_mounted (React.phase f)
     || negb (truthy (subscription (fst (React.sys f)))) = true
  /\ (if mounts_when_idle env ops (start env props src)
      then settled (subscription (fst s)) (trace (snd s))
      else True)
  /\ subscription (fst s) = held (trace (snd s))
  /\ subscription (fst (exec env (never_mounted ops) (start env props src))) = None
  /\ subscription (fst (after (componentWillUnmount env) s)) = None
  /\ match graphqlObserve env (CONFIG_graphqlQueryPath env) request_init query
             (JObj []) JNull (source (snd s)) with
     | (Ok o, src1) =>
         match subscribe env o (observer env) src1 with
         | (Ok h, src2) =>
             outcome (componentDidMount env) s = Ok tt
             /\ subscription (fst (after (componentDidMount env) s)) = Some h
             /\ source (snd (after (componentDidMount env) s)) = src2
         | (Throw e, _) =>
             outcome (componentDidMount env) s = Throw e
             /\ subscription (fst (after (componentDidMount env) s))
                = subscription (fst s)
         end
     | (Throw e, _) =>
         outcome (componentDidMount env) s = Throw e
         /\ subscription (fst (after (componentDidMount env) s))
            = subscription (fst s)
     end
  /\ subscription (fst (after (deliver env n) s)) = subscription (fst s).
Proof.
  cbv zeta.
  assert (H0 : settled (subscription (fst (start env props src)))
                       (trace (snd (start env props src))))
    by reflexivity.
  destruct (runtime_run env ops (React.create env props src)
              (conj H0 eq_refl)) as [Hr1 Hr2].
  split; [exact Hr1 |]. split; [exact Hr2 |].
  split.
  { destruct (mounts_when_idle env ops (start env props src)) eqn:E; [| exact I].
    apply settled_idle_run; assumption. }
  split; [apply field_follows_trace; reflexivity |].
  split; [apply (never_mounted_idle env ops (start env props src) eq_refl) |].
  split; [apply unmount_clears |].
  split; [| rewrite after_deliver; reflexivity].
  destruct (exec env ops (start env props src)) as [c w].
  unfold outcome, after.
  unfold componentDidMount, invokeQuery, console_log, emit, call_source,
    set_subscription, bind, ret.
  cbn [fst snd source trace].
  destruct (graphqlObserve env (CONFIG_graphqlQueryPath env) request_init query
              (JObj []) JNull (source w)) as [[o | e] src1];
    cbn [fst snd source trace]; [| split; reflexivity].
  destruct (subscribe env o (observer env) src1) as [[h | e] src2];
    cbn [fst snd source trace subscription];
    repeat split; reflexivity.
Qed.
